(** * Diagnostics of the MIR unsafety checker (rustc_mir_transform/src/errors.rs)

    A shallow embedding of the diagnostic structs of [errors.rs] and of the
    builder calls they make.  The builder of [rustc_errors] is not part of
    this fragment; it is modelled from the spec's [AssembledDiagnostic]
    record: every builder method is a function from the record under
    construction to the updated record (explicit state passing for the
    [&mut DiagnosticBuilder] the Rust code threads through). *)

From Stdlib Require Import String List Bool Arith Lia.
Import ListNotations.
Open Scope string_scope.
Open Scope list_scope.

(** ** Spans, messages and argument values *)

Record Span := mkSpan { lo : nat; hi : nat }.

Definition span_eqb (a b : Span) : bool :=
  Nat.eqb (lo a) (lo b) && Nat.eqb (hi a) (hi b).

(** [DiagnosticMessage]: a plain string, an eagerly translated string, or a
    Fluent identifier with an optional attribute. *)
Inductive DiagnosticMessage :=
| MsgStr (s : string)
| Eager (s : string)
| FluentIdentifier (id : string) (attr : option string).

Inductive DiagnosticArgValue :=
| Str (s : string)
| Number (n : nat)
| StrListSepByAnd (l : list string).

(** Modelled from the spec: the [IntoDiagnosticArg] conversions of
    [rustc_errors] (strings, booleans, counts and and-joined lists). *)
Class IntoDiagnosticArg (A : Type) := into_diagnostic_arg : A -> DiagnosticArgValue.

#[export] Instance string_into_arg : IntoDiagnosticArg string := Str.
#[export] Instance bool_into_arg : IntoDiagnosticArg bool :=
  fun b => Str (if b then "true" else "false").
#[export] Instance usize_into_arg : IntoDiagnosticArg nat := Number.
#[export] Instance value_into_arg : IntoDiagnosticArg DiagnosticArgValue := fun v => v.

Inductive DiagnosticId :=
| Error (code : string)
| LintId (name : string).

Inductive Applicability :=
| MachineApplicable | MaybeIncorrect | HasPlaceholders | Unspecified.

Inductive SuggestionStyle :=
| HideCodeInline | HideCodeAlways | CompletelyHidden | ShowCode | ShowAlways.

Record Lint := mkLint { lint_name : string }.

Module builtin.
Definition ARITHMETIC_OVERFLOW : Lint := mkLint "arithmetic_overflow".
Definition UNCONDITIONAL_PANIC : Lint := mkLint "unconditional_panic".
End builtin.

(** The Fluent slugs of [crate::fluent_generated] used by this file. *)
Module fluent.
Definition slug (s : string) : DiagnosticMessage := FluentIdentifier s None.
Definition mir_transform_requires_unsafe := slug "mir_transform_requires_unsafe".
Definition mir_transform_not_inherited := slug "mir_transform_not_inherited".
Definition mir_transform_call_to_unsafe_note := slug "mir_transform_call_to_unsafe_note".
Definition mir_transform_use_of_asm_note := slug "mir_transform_use_of_asm_note".
Definition mir_transform_initializing_valid_range_note :=
  slug "mir_transform_initializing_valid_range_note".
Definition mir_transform_const_ptr2int_note := slug "mir_transform_const_ptr2int_note".
Definition mir_transform_use_of_static_mut_note := slug "mir_transform_use_of_static_mut_note".
Definition mir_transform_use_of_extern_static_note :=
  slug "mir_transform_use_of_extern_static_note".
Definition mir_transform_deref_ptr_note := slug "mir_transform_deref_ptr_note".
Definition mir_transform_union_access_note := slug "mir_transform_union_access_note".
Definition mir_transform_mutation_layout_constrained_note :=
  slug "mir_transform_mutation_layout_constrained_note".
Definition mir_transform_mutation_layout_constrained_borrow_note :=
  slug "mir_transform_mutation_layout_constrained_borrow_note".
Definition mir_transform_target_feature_call_help := slug "mir_transform_target_feature_call_help".
Definition mir_transform_target_feature_call_note := slug "mir_transform_target_feature_call_note".
Definition mir_transform_call_to_unsafe_label := slug "mir_transform_call_to_unsafe_label".
Definition mir_transform_use_of_asm_label := slug "mir_transform_use_of_asm_label".
Definition mir_transform_initializing_valid_range_label :=
  slug "mir_transform_initializing_valid_range_label".
Definition mir_transform_const_ptr2int_label := slug "mir_transform_const_ptr2int_label".
Definition mir_transform_use_of_static_mut_label := slug "mir_transform_use_of_static_mut_label".
Definition mir_transform_use_of_extern_static_label :=
  slug "mir_transform_use_of_extern_static_label".
Definition mir_transform_deref_ptr_label := slug "mir_transform_deref_ptr_label".
Definition mir_transform_union_access_label := slug "mir_transform_union_access_label".
Definition mir_transform_mutation_layout_constrained_label :=
  slug "mir_transform_mutation_layout_constrained_label".
Definition mir_transform_mutation_layout_constrained_borrow_label :=
  slug "mir_transform_mutation_layout_constrained_borrow_label".
Definition mir_transform_target_feature_call_label := slug "mir_transform_target_feature_call_label".
Definition mir_transform_note := slug "mir_transform_note".
Definition mir_transform_suggestion := slug "mir_transform_suggestion".
Definition mir_transform_unsafe_op_in_unsafe_fn := slug "mir_transform_unsafe_op_in_unsafe_fn".
Definition mir_transform_arithmetic_overflow := slug "mir_transform_arithmetic_overflow".
Definition mir_transform_operation_will_panic := slug "mir_transform_operation_will_panic".
End fluent.

(** ** The diagnostic record and its builder

    Modelled from the spec: the [Handler] and [DiagnosticBuilder] of
    [rustc_errors] (spec section 3, [AssembledDiagnostic]). *)

Record Handler := mkHandler {
  eagerly_translate_to_string :
    DiagnosticMessage -> list (string * DiagnosticArgValue) -> string
}.

Record MultiSpan := mkMultiSpan {
  primary_spans : list Span;
  span_labels : list (Span * DiagnosticMessage)
}.

Definition MultiSpan_new : MultiSpan := mkMultiSpan [] [].
Definition MultiSpan_from (sp : Span) : MultiSpan := mkMultiSpan [sp] [].

Inductive SubLevel := Note | Help.

Record SubDiagnostic := mkSub {
  sub_level : SubLevel;
  sub_message : DiagnosticMessage;
  sub_span : MultiSpan
}.

Record SubstitutionPart := mkPart { part_span : Span; snippet : string }.

Record CodeSuggestion := mkSuggestion {
  substitutions : list (list SubstitutionPart);
  sugg_msg : DiagnosticMessage;
  style : SuggestionStyle;
  applicability : Applicability
}.

Inductive Level := LvlError | LvlWarning.

(** [handler_state] is [Some h] while the builder is emittable through [h]
    and [None] once it was emitted or cancelled. *)
Record DiagnosticBuilder := mkDiag {
  handler_state : option Handler;
  level : Level;
  message : DiagnosticMessage;
  code : option DiagnosticId;
  span : MultiSpan;
  children : list SubDiagnostic;
  suggestions : list CodeSuggestion;
  args : list (string * DiagnosticArgValue)
}.

(** Structured arguments form a map from names to values: [set_arg]
    overwrites an existing binding of the same name. *)
Fixpoint arg_insert (k : string) (v : DiagnosticArgValue)
    (l : list (string * DiagnosticArgValue)) : list (string * DiagnosticArgValue) :=
  match l with
  | [] => [(k, v)]
  | (k', v') :: t => if String.eqb k k' then (k, v) :: t else (k', v') :: arg_insert k v t
  end.

Fixpoint arg_lookup (k : string) (l : list (string * DiagnosticArgValue))
    : option DiagnosticArgValue :=
  match l with
  | [] => None
  | (k', v') :: t => if String.eqb k k' then Some v' else arg_lookup k t
  end.

Definition with_fields (d : DiagnosticBuilder) (c : option DiagnosticId) (s : MultiSpan)
    (ch : list SubDiagnostic) (sg : list CodeSuggestion)
    (a : list (string * DiagnosticArgValue)) : DiagnosticBuilder :=
  mkDiag (handler_state d) (level d) (message d) c s ch sg a.

Definition struct_diagnostic (h : Handler) (msg : DiagnosticMessage) : DiagnosticBuilder :=
  mkDiag (Some h) LvlError msg None MultiSpan_new [] [] [].

Definition handler (d : DiagnosticBuilder) : option Handler := handler_state d.

Definition set_code (id : DiagnosticId) (d : DiagnosticBuilder) : DiagnosticBuilder :=
  with_fields d (Some id) (span d) (children d) (suggestions d) (args d).

(** [set_span] replaces the whole multispan by one primary span. *)
Definition set_span (sp : Span) (d : DiagnosticBuilder) : DiagnosticBuilder :=
  with_fields d (code d) (MultiSpan_from sp) (children d) (suggestions d) (args d).

Definition span_label (sp : Span) (m : DiagnosticMessage) (d : DiagnosticBuilder)
    : DiagnosticBuilder :=
  with_fields d (code d)
    (mkMultiSpan (primary_spans (span d)) (span_labels (span d) ++ [(sp, m)]))
    (children d) (suggestions d) (args d).

Definition set_arg {A} `{IntoDiagnosticArg A} (name : string) (v : A)
    (d : DiagnosticBuilder) : DiagnosticBuilder :=
  with_fields d (code d) (span d) (children d) (suggestions d)
    (arg_insert name (into_diagnostic_arg v) (args d)).

Definition sub (lvl : SubLevel) (m : DiagnosticMessage) (ms : MultiSpan)
    (d : DiagnosticBuilder) : DiagnosticBuilder :=
  with_fields d (code d) (span d) (children d ++ [mkSub lvl m ms]) (suggestions d) (args d).

Definition note (m : DiagnosticMessage) (d : DiagnosticBuilder) : DiagnosticBuilder :=
  sub Note m MultiSpan_new d.

Definition help (m : DiagnosticMessage) (d : DiagnosticBuilder) : DiagnosticBuilder :=
  sub Help m MultiSpan_new d.

Definition span_note (sp : Span) (m : DiagnosticMessage) (d : DiagnosticBuilder)
    : DiagnosticBuilder :=
  sub Note m (MultiSpan_from sp) d.

Definition tool_only_multipart_suggestion (m : DiagnosticMessage)
    (suggestion : list (Span * string)) (app : Applicability) (d : DiagnosticBuilder)
    : DiagnosticBuilder :=
  let parts := map (fun '(sp, s) => mkPart sp s) suggestion in
  with_fields d (code d) (span d) (children d)
    (suggestions d ++ [mkSuggestion [parts] m CompletelyHidden app]) (args d).

(** ** [UnsafetyViolationDetails] and [RequiresUnsafeDetail] *)

Inductive UnsafetyViolationDetails :=
| CallToUnsafeFunction
| UseOfInlineAssembly
| InitializingTypeWith
| CastOfPointerToInt
| UseOfMutableStatic
| UseOfExternStatic
| DerefOfRawPointer
| AccessToUnionField
| MutationOfLayoutConstrainedField
| BorrowOfLayoutConstrainedField
| CallToFunctionWith (missing : list string) (build_enabled : list string).

Module RequiresUnsafeDetail.
Record t := mk { span : Span; violation : UnsafetyViolationDetails }.
End RequiresUnsafeDetail.

(** [RequiresUnsafeDetail::add_subdiagnostics] *)
Definition add_subdiagnostics (self : RequiresUnsafeDetail.t) (diag : DiagnosticBuilder)
    : DiagnosticBuilder :=
  match RequiresUnsafeDetail.violation self with
  | CallToUnsafeFunction => note fluent.mir_transform_call_to_unsafe_note diag
  | UseOfInlineAssembly => note fluent.mir_transform_use_of_asm_note diag
  | InitializingTypeWith => note fluent.mir_transform_initializing_valid_range_note diag
  | CastOfPointerToInt => note fluent.mir_transform_const_ptr2int_note diag
  | UseOfMutableStatic => note fluent.mir_transform_use_of_static_mut_note diag
  | UseOfExternStatic => note fluent.mir_transform_use_of_extern_static_note diag
  | DerefOfRawPointer => note fluent.mir_transform_deref_ptr_note diag
  | AccessToUnionField => note fluent.mir_transform_union_access_note diag
  | MutationOfLayoutConstrainedField =>
      note fluent.mir_transform_mutation_layout_constrained_note diag
  | BorrowOfLayoutConstrainedField =>
      note fluent.mir_transform_mutation_layout_constrained_borrow_note diag
  | CallToFunctionWith missing build_enabled =>
      let diag := help fluent.mir_transform_target_feature_call_help diag in
      let diag := set_arg "missing_target_features" (StrListSepByAnd missing) diag in
      let diag := set_arg "missing_target_features_count" (length missing) diag in
      if negb (match build_enabled with [] => true | _ => false end) then
        let diag := note fluent.mir_transform_target_feature_call_note diag in
        let diag := set_arg "build_target_features" (StrListSepByAnd build_enabled) diag in
        set_arg "build_target_features_count" (length build_enabled) diag
      else diag
  end.

(** [RequiresUnsafeDetail::label] *)
Definition label (self : RequiresUnsafeDetail.t) : DiagnosticMessage :=
  match RequiresUnsafeDetail.violation self with
  | CallToUnsafeFunction => fluent.mir_transform_call_to_unsafe_label
  | UseOfInlineAssembly => fluent.mir_transform_use_of_asm_label
  | InitializingTypeWith => fluent.mir_transform_initializing_valid_range_label
  | CastOfPointerToInt => fluent.mir_transform_const_ptr2int_label
  | UseOfMutableStatic => fluent.mir_transform_use_of_static_mut_label
  | UseOfExternStatic => fluent.mir_transform_use_of_extern_static_label
  | DerefOfRawPointer => fluent.mir_transform_deref_ptr_label
  | AccessToUnionField => fluent.mir_transform_union_access_label
  | MutationOfLayoutConstrainedField => fluent.mir_transform_mutation_layout_constrained_label
  | BorrowOfLayoutConstrainedField =>
      fluent.mir_transform_mutation_layout_constrained_borrow_label
  | CallToFunctionWith _ _ => fluent.mir_transform_target_feature_call_label
  end.

(** ** [RequiresUnsafe] and its hard-error diagnostic *)

Module RequiresUnsafe.
Record t := mk {
  span : Span;
  details : RequiresUnsafeDetail.t;
  enclosing : option Span;
  op_in_unsafe_fn_allowed : bool
}.
End RequiresUnsafe.

(** [<RequiresUnsafe as IntoDiagnostic>::into_diagnostic] *)
Definition into_diagnostic (self : RequiresUnsafe.t) (h : Handler) : DiagnosticBuilder :=
  let diag := struct_diagnostic h fluent.mir_transform_requires_unsafe in
  let diag := set_code (Error "E0133") diag in
  let diag := set_span (RequiresUnsafe.span self) diag in
  let diag := span_label (RequiresUnsafe.span self) (label (RequiresUnsafe.details self)) diag in
  let desc := eagerly_translate_to_string h (label (RequiresUnsafe.details self)) [] in
  let diag := set_arg "details" desc diag in
  let diag := set_arg "op_in_unsafe_fn_allowed" (RequiresUnsafe.op_in_unsafe_fn_allowed self) diag in
  let diag := add_subdiagnostics (RequiresUnsafe.details self) diag in
  match RequiresUnsafe.enclosing self with
  | Some sp => span_label sp fluent.mir_transform_not_inherited diag
  | None => diag
  end.

(** ** [UnsafeOpInUnsafeFn] and its lint decoration *)

Module UnsafeOpInUnsafeFn.
(** [suggest_unsafe_block]: the start of the function body, the end of the
    function body and the function signature. *)
Record t := mk {
  details : RequiresUnsafeDetail.t;
  suggest_unsafe_block : option (Span * Span * Span)
}.
End UnsafeOpInUnsafeFn.

(** [<UnsafeOpInUnsafeFn as DecorateLint>::decorate_lint]; [None] is the
    panic of [expect("lint should not yet be emitted")]. *)
Definition decorate_lint (self : UnsafeOpInUnsafeFn.t) (diag : DiagnosticBuilder)
    : option DiagnosticBuilder :=
  match handler diag with
  | None => None
  | Some h =>
      let details := UnsafeOpInUnsafeFn.details self in
      let desc := eagerly_translate_to_string h (label details) [] in
      let diag := set_arg "details" desc diag in
      let diag := span_label (RequiresUnsafeDetail.span details) (label details) diag in
      let diag := add_subdiagnostics details diag in
      let diag :=
        match UnsafeOpInUnsafeFn.suggest_unsafe_block self with
        | Some (start, end_, fn_sig) =>
            let diag := span_note fn_sig fluent.mir_transform_note diag in
            tool_only_multipart_suggestion fluent.mir_transform_suggestion
              [(start, " unsafe {"); (end_, "}")] MaybeIncorrect diag
        | None => diag
        end in
      Some diag
  end.

(** [<UnsafeOpInUnsafeFn as DecorateLint>::msg] *)
Definition unsafe_op_in_unsafe_fn_msg (self : UnsafeOpInUnsafeFn.t) : DiagnosticMessage :=
  fluent.mir_transform_unsafe_op_in_unsafe_fn.

(** ** [AssertLint]

    [AssertKind<P>] lives in [rustc_middle]; what this file uses of it is
    its message and the arguments it hands to the closure of [add_args]. *)
Class AssertKindPayload (K : Type) := {
  diagnostic_message : K -> DiagnosticMessage;
  add_args : K -> list (string * DiagnosticArgValue)
}.

Inductive AssertLint (K : Type) :=
| ArithmeticOverflow (sp : Span) (p : K)
| UnconditionalPanic (sp : Span) (p : K).
Arguments ArithmeticOverflow {K} sp p.
Arguments UnconditionalPanic {K} sp p.

Section AssertLintImpl.
Context {K : Type} `{AssertKindPayload K}.

(** [AssertLint::lint] *)
Definition assert_lint_lint (self : AssertLint K) : Lint :=
  match self with
  | ArithmeticOverflow _ _ => builtin.ARITHMETIC_OVERFLOW
  | UnconditionalPanic _ _ => builtin.UNCONDITIONAL_PANIC
  end.

(** [AssertLint::span] *)
Definition assert_lint_span (self : AssertLint K) : Span :=
  match self with
  | ArithmeticOverflow sp _ | UnconditionalPanic sp _ => sp
  end.

(** [AssertLint::panic] *)
Definition assert_lint_panic (self : AssertLint K) : K :=
  match self with
  | ArithmeticOverflow _ p | UnconditionalPanic _ p => p
  end.

(** [<AssertLint<P> as DecorateLint>::msg] *)
Definition assert_lint_msg (self : AssertLint K) : DiagnosticMessage :=
  match self with
  | ArithmeticOverflow _ _ => fluent.mir_transform_arithmetic_overflow
  | UnconditionalPanic _ _ => fluent.mir_transform_operation_will_panic
  end.

(** [<AssertLint<P> as DecorateLint>::decorate_lint]: the closure given to
    [add_args] calls [set_arg] once per pair, in order. *)
Definition assert_lint_decorate_lint (self : AssertLint K) (diag : DiagnosticBuilder)
    : DiagnosticBuilder :=
  let sp := assert_lint_span self in
  let assert_kind := assert_lint_panic self in
  let message := diagnostic_message assert_kind in
  let diag := fold_left (fun d '(name, value) => set_arg name value d)
                (add_args assert_kind) diag in
  span_label sp message diag.

End AssertLintImpl.

(** ** Classification of a violation

    Modelled from the spec: the decision between a hard error, the
    [unsafe_op_in_unsafe_fn] lint and no diagnostic, made by the unsafety
    checker ([check_unsafety.rs], not part of this fragment) from whether
    the enclosing function is an [unsafe fn] and whether the lint policy
    allows unsafe operations in it (spec section 4.2). *)
Inductive ClassificationOutcome := HardError | LintOutcome | Permitted.

Definition classify (kind : UnsafetyViolationDetails)
    (enclosing_is_unsafe_fn unsafe_op_in_unsafe_fn_allowed : bool) : ClassificationOutcome :=
  if negb enclosing_is_unsafe_fn then HardError
  else if unsafe_op_in_unsafe_fn_allowed then Permitted
  else LintOutcome.

(** ** [MustNotSupend] and [MustNotSuspendReason] *)

Record DefId := mkDefId { krate : nat; index : nat }.

(** What [MustNotSupend] uses of the type context: [def_path_str]. *)
Record TyCtxt := mkTyCtxt { def_path_str : DefId -> string }.

Definition span_help (sp : Span) (m : DiagnosticMessage) (d : DiagnosticBuilder)
    : DiagnosticBuilder :=
  sub Help m (MultiSpan_from sp) d.

(** The attributes [.label] and [.help] of the lint's own message
    [mir_transform_must_not_suspend] ([fluent::_subdiag::label] and
    [fluent::_subdiag::help], resolved against that message). *)
Definition must_not_suspend_msg : DiagnosticMessage :=
  FluentIdentifier "mir_transform_must_not_suspend" None.
Definition subdiag_label : DiagnosticMessage :=
  FluentIdentifier "mir_transform_must_not_suspend" (Some "label").
Definition subdiag_help : DiagnosticMessage :=
  FluentIdentifier "mir_transform_must_not_suspend" (Some "help").

Module MustNotSuspendReason.
Record t := mk { span : Span; reason : string }.
End MustNotSuspendReason.

(** [#[derive(Subdiagnostic)]] on [MustNotSuspendReason]: the unannotated
    field [reason] becomes an argument and [#[note(mir_transform_note)]] a
    note at the [#[primary_span]]. *)
Definition must_not_suspend_reason_add_to_diagnostic (self : MustNotSuspendReason.t)
    (diag : DiagnosticBuilder) : DiagnosticBuilder :=
  let diag := set_arg "reason" (MustNotSuspendReason.reason self) diag in
  span_note (MustNotSuspendReason.span self) fluent.mir_transform_note diag.

Module MustNotSupend.
Record t := mk {
  tcx : TyCtxt;
  yield_sp : Span;
  reason : option MustNotSuspendReason.t;
  src_sp : Span;
  pre : string;
  def_id : DefId;
  post : string
}.
End MustNotSupend.

(** [<MustNotSupend as DecorateLint>::decorate_lint] *)
Definition must_not_suspend_decorate_lint (self : MustNotSupend.t) (diag : DiagnosticBuilder)
    : DiagnosticBuilder :=
  let diag := span_label (MustNotSupend.yield_sp self) subdiag_label diag in
  let diag :=
    match MustNotSupend.reason self with
    | Some reason => must_not_suspend_reason_add_to_diagnostic reason diag
    | None => diag
    end in
  let diag := span_help (MustNotSupend.src_sp self) subdiag_help diag in
  let diag := set_arg "pre" (MustNotSupend.pre self) diag in
  let diag := set_arg "def_path"
                (def_path_str (MustNotSupend.tcx self) (MustNotSupend.def_id self)) diag in
  set_arg "post" (MustNotSupend.post self) diag.

(** ** Lemmas on the argument map *)

Lemma arg_lookup_insert_eq k v l : arg_lookup k (arg_insert k v l) = Some v.
Proof.
  induction l as [|[k' v'] t IH]; simpl.
  - rewrite String.eqb_refl. reflexivity.
  - destruct (String.eqb k k') eqn:E; simpl.
    + rewrite String.eqb_refl. reflexivity.
    + rewrite E. exact IH.
Qed.

Lemma arg_lookup_insert_ne k k2 v l :
  String.eqb k2 k = false -> arg_lookup k2 (arg_insert k v l) = arg_lookup k2 l.
Proof.
  intros Hne. induction l as [|[k' v'] t IH]; simpl.
  - rewrite Hne. reflexivity.
  - destruct (String.eqb k k') eqn:E; simpl.
    + apply String.eqb_eq in E. subst k'. rewrite Hne. reflexivity.
    + destruct (String.eqb k2 k'); [reflexivity | exact IH].
Qed.

(** The names of the arguments [add_subdiagnostics] may set. *)
Definition target_feature_arg (k : string) : bool :=
  String.eqb k "missing_target_features" || String.eqb k "missing_target_features_count"
  || String.eqb k "build_target_features" || String.eqb k "build_target_features_count".

Lemma set_arg_lookup_other {A} `{IntoDiagnosticArg A} k k2 (v : A) d :
  String.eqb k2 k = false ->
  arg_lookup k2 (args (set_arg k v d)) = arg_lookup k2 (args d).
Proof. intros; apply arg_lookup_insert_ne; assumption. Qed.

(** [add_subdiagnostics] only appends subdiagnostics and sets target-feature
    arguments: every other part of the record is left as it was. *)
Lemma add_subdiagnostics_frame det d :
  let d' := add_subdiagnostics det d in
  handler_state d' = handler_state d /\ level d' = level d /\ message d' = message d /\
  code d' = code d /\ span d' = span d /\ suggestions d' = suggestions d /\
  (exists extra, children d' = children d ++ extra) /\
  (forall k, target_feature_arg k = false -> arg_lookup k (args d') = arg_lookup k (args d)).
Proof.
  cbv zeta. destruct det as [sp v].
  destruct v; [ .. | destruct build_enabled ]; cbn;
    repeat split; try reflexivity;
    try (eexists; rewrite <- ?app_assoc; reflexivity);
    intros k Hk; unfold target_feature_arg in Hk;
    repeat (apply orb_false_iff in Hk; destruct Hk as [Hk ?]);
    rewrite ?arg_lookup_insert_ne by assumption; reflexivity.
Qed.

(** ** Concrete runs *)

Definition sp1 : Span := mkSpan 10 20.
Definition sp2 : Span := mkSpan 0 40.
Definition h_id : Handler := mkHandler (fun m _ =>
  match m with FluentIdentifier id _ => id | MsgStr s | Eager s => s end).

Definition avx2_call (be : list string) : RequiresUnsafe.t :=
  RequiresUnsafe.mk sp1 (RequiresUnsafeDetail.mk sp1 (CallToFunctionWith ["avx2"] be))
    None false.

Example avx2_no_build_features :
  arg_lookup "build_target_features" (args (into_diagnostic (avx2_call []) h_id)) = None /\
  children (into_diagnostic (avx2_call []) h_id) =
    [mkSub Help fluent.mir_transform_target_feature_call_help MultiSpan_new].
Proof. split; reflexivity. Qed.

Example avx2_sse42_build_features :
  arg_lookup "build_target_features" (args (into_diagnostic (avx2_call ["sse4.2"]) h_id))
    = Some (StrListSepByAnd ["sse4.2"]) /\
  arg_lookup "details" (args (into_diagnostic (avx2_call ["sse4.2"]) h_id))
    = Some (Str "mir_transform_target_feature_call_label").
Proof. split; reflexivity. Qed.

Example deref_hard_error :
  let d := into_diagnostic
             (RequiresUnsafe.mk sp1 (RequiresUnsafeDetail.mk sp1 DerefOfRawPointer)
                (Some sp2) true) h_id in
  message d = fluent.mir_transform_requires_unsafe /\ primary_spans (span d) = [sp1] /\
  span_labels (span d) = [(sp1, fluent.mir_transform_deref_ptr_label);
                          (sp2, fluent.mir_transform_not_inherited)] /\
  arg_lookup "op_in_unsafe_fn_allowed" (args d) = Some (Str "true").
Proof. repeat split; reflexivity. Qed.

(** ** Claims *)

(** C1: for [CallToFunctionWith missing build_enabled], [add_subdiagnostics]
    always appends the help and sets [missing_target_features] (the
    and-joined list of [missing]) and its count; it appends the
    target-feature note and sets [build_target_features] (and-joined list)
    and its count exactly when [build_enabled] is non-empty, otherwise those
    arguments keep whatever binding they had.  On the hard-error path, whose
    record starts empty, the note and [build_target_features] are present
    if and only if [build_enabled] is non-empty, and the help always is. *)
Theorem call_to_function_with_subdiagnostics sp missing build_enabled :
  (forall d,
    let d' := add_subdiagnostics
                (RequiresUnsafeDetail.mk sp (CallToFunctionWith missing build_enabled)) d in
    children d' =
      children d ++ mkSub Help fluent.mir_transform_target_feature_call_help MultiSpan_new
        :: match build_enabled with
           | [] => []
           | _ :: _ => [mkSub Note fluent.mir_transform_target_feature_call_note MultiSpan_new]
           end /\
    arg_lookup "missing_target_features" (args d') = Some (StrListSepByAnd missing) /\
    arg_lookup "missing_target_features_count" (args d')
      = Some (into_diagnostic_arg (length missing)) /\
    arg_lookup "build_target_features" (args d') =
      match build_enabled with
      | [] => arg_lookup "build_target_features" (args d)
      | _ :: _ => Some (StrListSepByAnd build_enabled)
      end /\
    arg_lookup "build_target_features_count" (args d') =
      match build_enabled with
      | [] => arg_lookup "build_target_features_count" (args d)
      | _ :: _ => Some (into_diagnostic_arg (length build_enabled))
      end) /\
  (forall s enc flag h,
    let d := into_diagnostic
               (RequiresUnsafe.mk s
                  (RequiresUnsafeDetail.mk sp (CallToFunctionWith missing build_enabled))
                  enc flag) h in
    In (mkSub Help fluent.mir_transform_target_feature_call_help MultiSpan_new) (children d) /\
    arg_lookup "missing_target_features" (args d) = Some (StrListSepByAnd missing) /\
    (In (mkSub Note fluent.mir_transform_target_feature_call_note MultiSpan_new) (children d)
       <-> build_enabled <> []) /\
    (arg_lookup "build_target_features" (args d) <> None <-> build_enabled <> []) /\
    (arg_lookup "build_target_features_count" (args d) <> None <-> build_enabled <> [])).
Proof.
  split.
  - intros d. cbv zeta. destruct build_enabled as [|f fs]; cbn.
    + repeat split.
      * rewrite arg_lookup_insert_ne by reflexivity. apply arg_lookup_insert_eq.
      * apply arg_lookup_insert_eq.
      * rewrite !arg_lookup_insert_ne by reflexivity. reflexivity.
      * rewrite !arg_lookup_insert_ne by reflexivity. reflexivity.
    + rewrite <- app_assoc. repeat split.
      * rewrite !arg_lookup_insert_ne by reflexivity. apply arg_lookup_insert_eq.
      * rewrite !arg_lookup_insert_ne by reflexivity. apply arg_lookup_insert_eq.
      * rewrite arg_lookup_insert_ne by reflexivity. apply arg_lookup_insert_eq.
      * apply arg_lookup_insert_eq.
  - intros s enc flag h. cbv zeta.
    destruct enc as [e|]; destruct build_enabled as [|f fs]; cbn;
      repeat split; try (intros Hc; discriminate Hc); try (intros Hc; exfalso; apply Hc; reflexivity);
      try (left; reflexivity); try (right; left; reflexivity);
      try (intros [Hc|[]]; discriminate Hc); intros _ Hc; discriminate Hc.
Qed.

(** C2: the hard error built from any [RequiresUnsafe] has the message
    [mir_transform_requires_unsafe], error code E0133, the violation's span
    as its only primary span, that span labelled first with the kind's
    label, the argument [details] bound to the eager translation of that
    label, and the argument [op_in_unsafe_fn_allowed] bound to the policy
    flag. *)
Theorem requires_unsafe_hard_error (r : RequiresUnsafe.t) (h : Handler) :
  let d := into_diagnostic r h in
  message d = fluent.mir_transform_requires_unsafe /\
  level d = LvlError /\
  code d = Some (Error "E0133") /\
  primary_spans (span d) = [RequiresUnsafe.span r] /\
  hd_error (span_labels (span d)) =
    Some (RequiresUnsafe.span r, label (RequiresUnsafe.details r)) /\
  arg_lookup "details" (args d) =
    Some (Str (eagerly_translate_to_string h (label (RequiresUnsafe.details r)) [])) /\
  arg_lookup "op_in_unsafe_fn_allowed" (args d) =
    Some (into_diagnostic_arg (RequiresUnsafe.op_in_unsafe_fn_allowed r)).
Proof.
  destruct r as [s det enc flag]. cbv zeta. unfold into_diagnostic. cbn zeta.
  cbn [RequiresUnsafe.span RequiresUnsafe.details RequiresUnsafe.enclosing
       RequiresUnsafe.op_in_unsafe_fn_allowed].
  set (d0 := set_arg "op_in_unsafe_fn_allowed" flag _).
  destruct (add_subdiagnostics_frame det d0) as (_ & Hl & Hm & Hc & Hs & _ & _ & Ha).
  cbv zeta in *.
  destruct enc as [e|]; cbn [span_label with_fields message level code span args
                              primary_spans span_labels];
    rewrite ?Hl, ?Hm, ?Hc, ?Hs, ?Ha by reflexivity; repeat split; reflexivity.
Qed.

(** C5: the labels of the hard error are the kind's label at the
    violation's span followed by the "not inherited" label at the enclosing
    span when there is one, and by nothing otherwise. *)
Theorem requires_unsafe_not_inherited_label (r : RequiresUnsafe.t) (h : Handler) :
  span_labels (span (into_diagnostic r h)) =
    (RequiresUnsafe.span r, label (RequiresUnsafe.details r)) ::
    match RequiresUnsafe.enclosing r with
    | Some sp => [(sp, fluent.mir_transform_not_inherited)]
    | None => []
    end.
Proof.
  destruct r as [s det enc flag]. unfold into_diagnostic. cbn zeta.
  cbn [RequiresUnsafe.span RequiresUnsafe.details RequiresUnsafe.enclosing
       RequiresUnsafe.op_in_unsafe_fn_allowed].
  set (d0 := set_arg "op_in_unsafe_fn_allowed" flag _).
  destruct (add_subdiagnostics_frame det d0) as (_ & _ & _ & _ & Hs & _).
  destruct enc as [e|]; cbn [span_label with_fields span span_labels primary_spans];
    rewrite Hs; reflexivity.
Qed.

(** C3: the classification depends only on the two flags, not on the
    violation kind: outside an [unsafe fn] it is a hard error whatever the
    policy; inside one it is the lint when the policy does not allow unsafe
    operations and no diagnostic when it does. *)
Theorem classify_decision_table :
  (forall k1 k2 e a, classify k1 e a = classify k2 e a) /\
  (forall k a, classify k false a = HardError) /\
  (forall k, classify k true false = LintOutcome) /\
  (forall k, classify k true true = Permitted).
Proof. repeat split; intros; destruct_all bool; reflexivity. Qed.

(** C7: [lint] is decided by the variant alone (overflow lint for
    [ArithmeticOverflow], unconditional-panic lint for [UnconditionalPanic])
    and [span] returns the stored span of either variant, whatever the
    payload. *)
Theorem assert_lint_lint_and_span {K : Type} (s : Span) (p q : K) :
  assert_lint_lint (ArithmeticOverflow s p) = builtin.ARITHMETIC_OVERFLOW /\
  assert_lint_lint (UnconditionalPanic s p) = builtin.UNCONDITIONAL_PANIC /\
  assert_lint_lint (ArithmeticOverflow s p) = assert_lint_lint (ArithmeticOverflow s q) /\
  assert_lint_lint (UnconditionalPanic s p) = assert_lint_lint (UnconditionalPanic s q) /\
  assert_lint_span (ArithmeticOverflow s p) = s /\
  assert_lint_span (UnconditionalPanic s p) = s.
Proof. repeat split. Qed.

(** ** Lemmas on the lint decorations *)

Lemma with_fields_eta d d' :
  handler_state d' = handler_state d -> level d' = level d -> message d' = message d ->
  d' = with_fields d (code d') (span d') (children d') (suggestions d') (args d').
Proof. destruct d, d'; cbn; intros -> -> ->; reflexivity. Qed.

Lemma fold_set_arg (l : list (string * DiagnosticArgValue)) (d : DiagnosticBuilder) :
  fold_left (fun d '(name, value) => set_arg name value d) l d =
  with_fields d (code d) (span d) (children d) (suggestions d)
    (fold_left (fun a '(name, value) => arg_insert name value a) l (args d)).
Proof.
  revert d. induction l as [|[n v] t IH]; intros d; destruct d; cbn.
  - reflexivity.
  - rewrite IH. reflexivity.
Qed.

Lemma decorate_lint_with_suggestion det start end_ fn_sig d :
  decorate_lint (UnsafeOpInUnsafeFn.mk det (Some (start, end_, fn_sig))) d =
  option_map (fun d0 =>
      with_fields d0 (code d0) (span d0)
        (children d0 ++ [mkSub Note fluent.mir_transform_note (MultiSpan_from fn_sig)])
        (suggestions d0 ++
           [mkSuggestion [[mkPart start " unsafe {"; mkPart end_ "}"]]
              fluent.mir_transform_suggestion CompletelyHidden MaybeIncorrect])
        (args d0))
    (decorate_lint (UnsafeOpInUnsafeFn.mk det None) d).
Proof.
  unfold decorate_lint. cbn [UnsafeOpInUnsafeFn.details UnsafeOpInUnsafeFn.suggest_unsafe_block].
  destruct (handler d); [|reflexivity]. cbn [option_map].
  set (d0 := add_subdiagnostics det _). destruct d0; reflexivity.
Qed.

(** C8: the primary message of an [AssertLint] is the arithmetic-overflow
    message for [ArithmeticOverflow] and the operation-will-panic message
    for [UnconditionalPanic]; decorating appends the payload's own message
    as a label at the stored span and sets, in order and unchanged, exactly
    the (name, value) pairs the payload supplies; nothing else changes. *)
Theorem assert_lint_decoration {K : Type} `{AssertKindPayload K}
    (s : Span) (p : K) (d : DiagnosticBuilder) :
  assert_lint_msg (ArithmeticOverflow s p) = fluent.mir_transform_arithmetic_overflow /\
  assert_lint_msg (UnconditionalPanic s p) = fluent.mir_transform_operation_will_panic /\
  forall tag : bool,
    let d' := assert_lint_decorate_lint
                (if tag then ArithmeticOverflow s p else UnconditionalPanic s p) d in
    span_labels (span d') = span_labels (span d) ++ [(s, diagnostic_message p)] /\
    args d' = fold_left (fun a '(name, value) => arg_insert name value a) (add_args p) (args d) /\
    handler_state d' = handler_state d /\ level d' = level d /\ message d' = message d /\
    code d' = code d /\ primary_spans (span d') = primary_spans (span d) /\
    children d' = children d /\ suggestions d' = suggestions d.
Proof.
  split; [reflexivity|]. split; [reflexivity|].
  intros tag. cbv zeta.
  assert (E : assert_lint_decorate_lint
                (if tag then ArithmeticOverflow s p else UnconditionalPanic s p) d =
              span_label s (diagnostic_message p)
                (fold_left (fun d '(name, value) => set_arg name value d) (add_args p) d))
    by (destruct tag; reflexivity).
  rewrite E, fold_set_arg. destruct d; cbn. repeat split.
Qed.

(** C9: assembling is a function of its inputs, so the same input gives
    equal records; and [add_subdiagnostics] touches nothing but the record
    it is given, and in it only appends subdiagnostics and binds the
    target-feature arguments. *)
Theorem assembly_deterministic_and_framed :
  (forall r h, into_diagnostic r h = into_diagnostic r h) /\
  (forall x d, decorate_lint x d = decorate_lint x d) /\
  (forall det d, exists extra a,
     add_subdiagnostics det d =
       with_fields d (code d) (span d) (children d ++ extra) (suggestions d) a /\
     (forall k, target_feature_arg k = false -> arg_lookup k a = arg_lookup k (args d))).
Proof.
  split; [reflexivity|]. split; [reflexivity|].
  intros det d.
  destruct (add_subdiagnostics_frame det d) as (Hh & Hl & Hm & Hc & Hs & Hsg & [extra He] & Ha).
  exists extra, (args (add_subdiagnostics det d)). split; [|exact Ha].
  rewrite (with_fields_eta d (add_subdiagnostics det d)) at 1 by assumption.
  rewrite Hc, Hs, Hsg, He. reflexivity.
Qed.

(** C10: with or without the suggestion triple, [decorate_lint] binds
    [details] to the eager translation of the kind's label, labels the
    violation's span with that label and adds the kind's subdiagnostics;
    the triple only appends the note at the signature and the tool-only
    suggestion, every other field being the same. *)
Theorem unsafe_op_in_unsafe_fn_decoration det start end_ fn_sig d :
  decorate_lint (UnsafeOpInUnsafeFn.mk det None) d =
    match handler d with
    | None => None
    | Some h =>
        Some (add_subdiagnostics det
                (span_label (RequiresUnsafeDetail.span det) (label det)
                   (set_arg "details" (eagerly_translate_to_string h (label det) []) d)))
    end /\
  decorate_lint (UnsafeOpInUnsafeFn.mk det (Some (start, end_, fn_sig))) d =
    option_map (fun d0 =>
        with_fields d0 (code d0) (span d0)
          (children d0 ++ [mkSub Note fluent.mir_transform_note (MultiSpan_from fn_sig)])
          (suggestions d0 ++
             [mkSuggestion [[mkPart start " unsafe {"; mkPart end_ "}"]]
                fluent.mir_transform_suggestion CompletelyHidden MaybeIncorrect])
          (args d0))
      (decorate_lint (UnsafeOpInUnsafeFn.mk det None) d).
Proof.
  split; [reflexivity|]. apply decorate_lint_with_suggestion.
Qed.

(** ** The suggestion's edit spans and empty [missing] lists *)

(** The edits of every substitution of [c] sit at pairwise different spans. *)
Definition insertion_spans_distinct (c : CodeSuggestion) : Prop :=
  forall parts, In parts (substitutions c) -> NoDup (map part_span parts).

Definition lint_builder : DiagnosticBuilder :=
  mkDiag (Some h_id) LvlWarning fluent.mir_transform_unsafe_op_in_unsafe_fn None
    (MultiSpan_from sp1) [] [] [].

Definition empty_body_at (sp : Span) : UnsafeOpInUnsafeFn.t :=
  UnsafeOpInUnsafeFn.mk (RequiresUnsafeDetail.mk sp1 DerefOfRawPointer) (Some (sp, sp, sp2)).

(** C4 (counterexample): the two edits are placed at the spans the caller
    passes; given the same span for the start and the end of the body, both
    edits sit at that one span. *)
Lemma unsafe_block_edit_spans_can_coincide :
  ~ (forall x d d', decorate_lint x d = Some d' ->
       forall c, In c (suggestions d') -> insertion_spans_distinct c).
Proof.
  intros Hall.
  assert (Hd : decorate_lint (empty_body_at sp1) lint_builder = Some
    (with_fields lint_builder None (mkMultiSpan [sp1] [(sp1, fluent.mir_transform_deref_ptr_label)])
       [mkSub Note fluent.mir_transform_deref_ptr_note MultiSpan_new;
        mkSub Note fluent.mir_transform_note (MultiSpan_from sp2)]
       [mkSuggestion [[mkPart sp1 " unsafe {"; mkPart sp1 "}"]]
          fluent.mir_transform_suggestion CompletelyHidden MaybeIncorrect]
       [("details", Str "mir_transform_deref_ptr_label")])) by reflexivity.
  specialize (Hall _ _ _ Hd _ (or_introl eq_refl) _ (or_introl eq_refl)).
  cbn in Hall. inversion Hall as [|x l Hnin _]. apply Hnin. left. reflexivity.
Qed.

(** C4 (amended): with the builder still emittable, a suggestion triple
    (start, end, signature) adds a note at the signature and one tool-only
    ([CompletelyHidden]) suggestion, applicability [MaybeIncorrect], whose
    edits are exactly " unsafe {" at start and "}" at end, in that order;
    the two edits are at different spans exactly when start and end differ. *)
Theorem unsafe_block_suggestion_edits det start end_ fn_sig d h :
  handler d = Some h ->
  exists d0 d1,
    decorate_lint (UnsafeOpInUnsafeFn.mk det None) d = Some d0 /\
    decorate_lint (UnsafeOpInUnsafeFn.mk det (Some (start, end_, fn_sig))) d = Some d1 /\
    children d1 = children d0 ++ [mkSub Note fluent.mir_transform_note (MultiSpan_from fn_sig)] /\
    suggestions d1 = suggestions d0 ++
      [mkSuggestion [[mkPart start " unsafe {"; mkPart end_ "}"]]
         fluent.mir_transform_suggestion CompletelyHidden MaybeIncorrect] /\
    (NoDup (map part_span [mkPart start " unsafe {"; mkPart end_ "}"]) <-> start <> end_).
Proof.
  intros Hh.
  destruct (decorate_lint (UnsafeOpInUnsafeFn.mk det None) d) as [d0|] eqn:E0.
  2:{ unfold decorate_lint in E0. rewrite Hh in E0. discriminate E0. }
  exists d0.
  eexists. split; [reflexivity|]. split.
  { rewrite decorate_lint_with_suggestion, E0. reflexivity. }
  cbn. split; [reflexivity|]. split; [reflexivity|]. split.
  - intros Hnd Heq. subst end_. inversion Hnd as [|x l Hnin _]. apply Hnin. left. reflexivity.
  - intros Hne. constructor.
    + intros [Heq|[]]. apply Hne. symmetry. exact Heq.
    + constructor; [intros []|constructor].
Qed.

Lemma unsafe_block_suggestion_edits_witness :
  handler lint_builder = Some h_id /\
  exists d0 d1,
    decorate_lint (UnsafeOpInUnsafeFn.mk (RequiresUnsafeDetail.mk sp1 DerefOfRawPointer) None)
      lint_builder = Some d0 /\
    decorate_lint (UnsafeOpInUnsafeFn.mk (RequiresUnsafeDetail.mk sp1 DerefOfRawPointer)
                     (Some (mkSpan 5 5, mkSpan 30 30, sp2))) lint_builder = Some d1 /\
    children d1 = children d0 ++ [mkSub Note fluent.mir_transform_note (MultiSpan_from sp2)] /\
    suggestions d1 = suggestions d0 ++
      [mkSuggestion [[mkPart (mkSpan 5 5) " unsafe {"; mkPart (mkSpan 30 30) "}"]]
         fluent.mir_transform_suggestion CompletelyHidden MaybeIncorrect] /\
    (NoDup (map part_span [mkPart (mkSpan 5 5) " unsafe {"; mkPart (mkSpan 30 30) "}"])
       <-> mkSpan 5 5 <> mkSpan 30 30).
Proof.
  split; [reflexivity|].
  apply (unsafe_block_suggestion_edits _ _ _ _ lint_builder h_id). reflexivity.
Defined.

Definition no_missing_feature (be : list string) : RequiresUnsafe.t :=
  RequiresUnsafe.mk sp1 (RequiresUnsafeDetail.mk sp1 (CallToFunctionWith [] be)) None false.

(** C6 (counterexample): a [CallToFunctionWith] violation with an empty
    [missing] list is rendered: the hard error carries the target-feature
    help like any other. *)
Lemma empty_missing_features_rendered :
  ~ (forall be h,
       ~ In (mkSub Help fluent.mir_transform_target_feature_call_help MultiSpan_new)
            (children (into_diagnostic (no_missing_feature be) h))).
Proof.
  intros Hall. apply (Hall [] h_id). cbn. left. reflexivity.
Qed.

(** C6 (amended): nothing rejects an empty [missing] list; such a
    violation is rendered like any other [CallToFunctionWith]: the help is
    appended, [missing_target_features] is bound to the empty and-joined
    list and its count to 0. *)
Theorem empty_missing_features_not_rejected sp build_enabled d :
  let d' := add_subdiagnostics
              (RequiresUnsafeDetail.mk sp (CallToFunctionWith [] build_enabled)) d in
  In (mkSub Help fluent.mir_transform_target_feature_call_help MultiSpan_new) (children d') /\
  arg_lookup "missing_target_features" (args d') = Some (StrListSepByAnd []) /\
  arg_lookup "missing_target_features_count" (args d') = Some (into_diagnostic_arg 0).
Proof.
  cbv zeta. destruct build_enabled as [|f fs]; cbn.
  - split; [apply in_or_app; right; left; reflexivity|]. split.
    + rewrite arg_lookup_insert_ne by reflexivity. apply arg_lookup_insert_eq.
    + apply arg_lookup_insert_eq.
  - split; [apply in_or_app; left; apply in_or_app; right; left; reflexivity|]. split.
    + rewrite !arg_lookup_insert_ne by reflexivity. apply arg_lookup_insert_eq.
    + rewrite !arg_lookup_insert_ne by reflexivity. apply arg_lookup_insert_eq.
Qed.

(** ** Further properties of the diagnostic code *)

Lemma arg_lookup_insert k n v m :
  arg_lookup k (arg_insert n v m) = if String.eqb k n then Some v else arg_lookup k m.
Proof.
  destruct (String.eqb k n) eqn:E.
  - apply String.eqb_eq in E. subst. apply arg_lookup_insert_eq.
  - apply arg_lookup_insert_ne. exact E.
Qed.

Ltac lookup_rewrite H :=
  repeat (rewrite arg_lookup_insert_eq in H || rewrite arg_lookup_insert_ne in H by reflexivity).

(** Two violations get the same label only when they are the same unit
    kind or both [CallToFunctionWith] (whatever their feature lists). *)
Theorem label_distinguishes_kinds sp1' sp2' v1 v2 :
  label (RequiresUnsafeDetail.mk sp1' v1) = label (RequiresUnsafeDetail.mk sp2' v2) ->
  v1 = v2 \/ exists m1 b1 m2 b2, v1 = CallToFunctionWith m1 b1 /\ v2 = CallToFunctionWith m2 b2.
Proof.
  intros H. destruct v1, v2; cbv in H;
    solve [ discriminate H | left; reflexivity | right; do 4 eexists; split; reflexivity ].
Qed.

(** Every kind but [CallToFunctionWith] adds exactly one spanless note to
    the diagnostic and nothing else: no help, no argument. *)
Theorem unit_kind_adds_one_note sp v d :
  (forall m b, v <> CallToFunctionWith m b) ->
  exists msg, add_subdiagnostics (RequiresUnsafeDetail.mk sp v) d =
    with_fields d (code d) (span d) (children d ++ [mkSub Note msg MultiSpan_new])
      (suggestions d) (args d).
Proof.
  intros Hv. destruct v; try (exfalso; eapply Hv; reflexivity); eexists; reflexivity.
Qed.

Lemma unit_kind_adds_one_note_witness :
  (forall m b, DerefOfRawPointer <> CallToFunctionWith m b) /\
  exists msg, add_subdiagnostics (RequiresUnsafeDetail.mk sp1 DerefOfRawPointer) lint_builder =
    with_fields lint_builder (code lint_builder) (span lint_builder)
      (children lint_builder ++ [mkSub Note msg MultiSpan_new])
      (suggestions lint_builder) (args lint_builder).
Proof.
  assert (Hv : forall m b, DerefOfRawPointer <> CallToFunctionWith m b)
    by (intros m b Hc; discriminate Hc).
  split; [exact Hv|]. apply (unit_kind_adds_one_note sp1 DerefOfRawPointer lint_builder Hv).
Defined.

(** Different violations never render to the same subdiagnostics and
    arguments: [add_subdiagnostics] is injective in the violation, also
    among [CallToFunctionWith] values with different feature lists. *)
Theorem add_subdiagnostics_injective sp v1 v2 d :
  add_subdiagnostics (RequiresUnsafeDetail.mk sp v1) d =
  add_subdiagnostics (RequiresUnsafeDetail.mk sp v2) d -> v1 = v2.
Proof.
  intros H.
  pose (dummy := mkSub Help (MsgStr "") MultiSpan_new).
  assert (HL := f_equal (fun d => last (children d) dummy) H).
  assert (HM := f_equal (fun d => arg_lookup "missing_target_features" (args d)) H).
  assert (HB := f_equal (fun d => arg_lookup "build_target_features" (args d)) H).
  clear H.
  destruct v1 as [| | | | | | | | | |m1 [|f1 b1]];
  destruct v2 as [| | | | | | | | | |m2 [|f2 b2]];
    cbn in HL, HM, HB; rewrite ?last_last in HL; lookup_rewrite HM; lookup_rewrite HB;
    try reflexivity; try (cbv in HL; discriminate HL).
  - injection HM as ->. reflexivity.
  - injection HM as ->. injection HB as -> ->. reflexivity.
Qed.


(** On an emittable builder, [decorate_lint] of [UnsafeOpInUnsafeFn] keeps
    everything the lint machinery put there: message, level, code and
    primary spans are unchanged, labels, children and suggestions are only
    extended (the first new label being the kind's label at the detail's
    span), [details] is bound to the translated label, and every argument
    other than [details] and the four target-feature ones keeps its
    binding. *)
Theorem unsafe_op_decorate_extends_builder x d h :
  handler d = Some h ->
  exists d',
    decorate_lint x d = Some d' /\
    handler_state d' = handler_state d /\ level d' = level d /\ message d' = message d /\
    code d' = code d /\ primary_spans (span d') = primary_spans (span d) /\
    span_labels (span d') = span_labels (span d) ++
      [(RequiresUnsafeDetail.span (UnsafeOpInUnsafeFn.details x),
        label (UnsafeOpInUnsafeFn.details x))] /\
    (exists extra, children d' = children d ++ extra) /\
    (exists extra, suggestions d' = suggestions d ++ extra) /\
    arg_lookup "details" (args d') =
      Some (Str (eagerly_translate_to_string h (label (UnsafeOpInUnsafeFn.details x)) [])) /\
    (forall k, String.eqb k "details" = false -> target_feature_arg k = false ->
       arg_lookup k (args d') = arg_lookup k (args d)).
Proof.
  intros Hh. destruct x as [det sugg].
  unfold decorate_lint. rewrite Hh. cbn [UnsafeOpInUnsafeFn.details UnsafeOpInUnsafeFn.suggest_unsafe_block].
  set (d1 := span_label _ _ (set_arg "details" _ d)).
  destruct (add_subdiagnostics_frame det d1)
    as (Hh1 & Hl1 & Hm1 & Hc1 & Hs1 & Hsg1 & [ex He1] & Ha1).
  cbv zeta in *.
  assert (Hdet : String.eqb "details" "details" = true) by reflexivity.
  assert (Htf : target_feature_arg "details" = false) by reflexivity.
  destruct sugg as [[[start end_] fn_sig]|]; eexists; split; [reflexivity| |reflexivity|];
    cbn [span_note sub tool_only_multipart_suggestion with_fields handler_state level message
         code span children suggestions args];
    rewrite ?Hh1, ?Hl1, ?Hm1, ?Hc1, ?Hs1, ?Hsg1, ?He1;
    (repeat split; [ .. ]);
    try (eexists; rewrite <- ?app_assoc; reflexivity);
    try (eexists; rewrite app_nil_r; reflexivity);
    try (rewrite Ha1 by exact Htf; apply arg_lookup_insert_eq);
    try (intros k Hk1 Hk2; rewrite Ha1 by exact Hk2; apply arg_lookup_insert_ne; exact Hk1).
Qed.

Lemma unsafe_op_decorate_extends_builder_witness :
  handler lint_builder = Some h_id /\
  exists d',
    decorate_lint (empty_body_at (mkSpan 5 5)) lint_builder = Some d' /\
    handler_state d' = handler_state lint_builder /\ level d' = level lint_builder /\
    message d' = message lint_builder /\ code d' = code lint_builder /\
    primary_spans (span d') = primary_spans (span lint_builder) /\
    span_labels (span d') = span_labels (span lint_builder) ++
      [(RequiresUnsafeDetail.span (UnsafeOpInUnsafeFn.details (empty_body_at (mkSpan 5 5))),
        label (UnsafeOpInUnsafeFn.details (empty_body_at (mkSpan 5 5))))] /\
    (exists extra, children d' = children lint_builder ++ extra) /\
    (exists extra, suggestions d' = suggestions lint_builder ++ extra) /\
    arg_lookup "details" (args d') =
      Some (Str (eagerly_translate_to_string h_id
                   (label (UnsafeOpInUnsafeFn.details (empty_body_at (mkSpan 5 5)))) [])) /\
    (forall k, String.eqb k "details" = false -> target_feature_arg k = false ->
       arg_lookup k (args d') = arg_lookup k (args lint_builder)).
Proof.
  split; [reflexivity|].
  apply (unsafe_op_decorate_extends_builder (empty_body_at (mkSpan 5 5)) lint_builder h_id).
  reflexivity.
Defined.

Lemma arg_lookup_app k l1 l2 :
  arg_lookup k (l1 ++ l2) =
  match arg_lookup k l1 with Some v => Some v | None => arg_lookup k l2 end.
Proof.
  induction l1 as [|[k' v'] t IH]; cbn; [reflexivity|].
  destruct (String.eqb k k'); [reflexivity | exact IH].
Qed.

Lemma arg_lookup_fold_insert k l m :
  arg_lookup k (fold_left (fun a '(name, value) => arg_insert name value a) l m) =
  match arg_lookup k (rev l) with Some v => Some v | None => arg_lookup k m end.
Proof.
  revert m. induction l as [|[n v] t IH]; intros m; cbn; [reflexivity|].
  rewrite IH, arg_lookup_app, arg_lookup_insert. cbn.
  destruct (arg_lookup k (rev t)); [reflexivity|].
  destruct (String.eqb k n); reflexivity.
Qed.

(** After [AssertLint::decorate_lint], each argument name is bound to the
    value of the last pair with that name the payload supplied; names the
    payload does not supply keep their earlier binding. *)
Theorem assert_lint_args_last_pair_wins {K : Type} `{AssertKindPayload K}
    (x : AssertLint K) (d : DiagnosticBuilder) (k : string) :
  arg_lookup k (args (assert_lint_decorate_lint x d)) =
  match arg_lookup k (rev (add_args (assert_lint_panic x))) with
  | Some v => Some v
  | None => arg_lookup k (args d)
  end.
Proof.
  assert (E : assert_lint_decorate_lint x d =
              span_label (assert_lint_span x) (diagnostic_message (assert_lint_panic x))
                (fold_left (fun d '(name, value) => set_arg name value d)
                   (add_args (assert_lint_panic x)) d))
    by (destruct x; reflexivity).
  rewrite E, fold_set_arg. destruct d; cbn. apply arg_lookup_fold_insert.
Qed.

Example must_not_suspend_run :
  let tcx0 := mkTyCtxt (fun _ => "std::sync::MutexGuard") in
  let d := must_not_suspend_decorate_lint
             (MustNotSupend.mk tcx0 sp1 (Some (MustNotSuspendReason.mk sp2 "holds a lock"))
                sp2 "" (mkDefId 0 7) "") lint_builder in
  children d = [mkSub Note fluent.mir_transform_note (MultiSpan_from sp2);
                mkSub Help subdiag_help (MultiSpan_from sp2)] /\
  arg_lookup "def_path" (args d) = Some (Str "std::sync::MutexGuard") /\
  arg_lookup "reason" (args d) = Some (Str "holds a lock").
Proof. repeat split. Qed.

(** [MustNotSupend::decorate_lint] never panics and adds no suggestion; it
    labels the yield point, adds the reason's note at the reason's span and
    binds [reason] only when a reason is given, then a help at the source
    span, and binds [pre], [def_path] (the type context's path of [def_id])
    and [post]; no other argument changes. *)
Theorem must_not_suspend_decoration (self : MustNotSupend.t) (d : DiagnosticBuilder) :
  let d' := must_not_suspend_decorate_lint self d in
  handler_state d' = handler_state d /\ level d' = level d /\ message d' = message d /\
  code d' = code d /\ primary_spans (span d') = primary_spans (span d) /\
  suggestions d' = suggestions d /\
  span_labels (span d') = span_labels (span d) ++ [(MustNotSupend.yield_sp self, subdiag_label)] /\
  children d' = children d ++
    match MustNotSupend.reason self with
    | Some r => [mkSub Note fluent.mir_transform_note (MultiSpan_from (MustNotSuspendReason.span r))]
    | None => []
    end ++ [mkSub Help subdiag_help (MultiSpan_from (MustNotSupend.src_sp self))] /\
  arg_lookup "pre" (args d') = Some (Str (MustNotSupend.pre self)) /\
  arg_lookup "def_path" (args d') =
    Some (Str (def_path_str (MustNotSupend.tcx self) (MustNotSupend.def_id self))) /\
  arg_lookup "post" (args d') = Some (Str (MustNotSupend.post self)) /\
  arg_lookup "reason" (args d') =
    match MustNotSupend.reason self with
    | Some r => Some (Str (MustNotSuspendReason.reason r))
    | None => arg_lookup "reason" (args d)
    end /\
  (forall k, String.eqb k "pre" = false -> String.eqb k "def_path" = false ->
     String.eqb k "post" = false -> String.eqb k "reason" = false ->
     arg_lookup k (args d') = arg_lookup k (args d)).
Proof.
  destruct self as [tcx0 ysp [[rsp rs]|] ssp pr did po]; destruct d; cbn;
    rewrite ?app_nil_r, <- ?app_assoc; repeat split; cbn;
    rewrite ?arg_lookup_insert; cbn; try reflexivity;
    intros k H1 H2 H3 H4; rewrite ?arg_lookup_insert, ?H1, ?H2, ?H3, ?H4; reflexivity.
Qed.

(** For every kind but [CallToFunctionWith], the hard error is exactly: the
    requires-unsafe message with code E0133 at the violation's span, the
    kind's label there (then "not inherited" at the enclosing span, if
    any), one spanless note, no suggestion, and the two arguments
    [details] and [op_in_unsafe_fn_allowed]. *)
Theorem hard_error_unit_kind_record s sp v enc flag h :
  (forall m b, v <> CallToFunctionWith m b) ->
  exists n,
    into_diagnostic (RequiresUnsafe.mk s (RequiresUnsafeDetail.mk sp v) enc flag) h =
    mkDiag (Some h) LvlError fluent.mir_transform_requires_unsafe (Some (Error "E0133"))
      (mkMultiSpan [s]
         ((s, label (RequiresUnsafeDetail.mk sp v)) ::
          match enc with Some e => [(e, fluent.mir_transform_not_inherited)] | None => [] end))
      [mkSub Note n MultiSpan_new] []
      [("details", Str (eagerly_translate_to_string h (label (RequiresUnsafeDetail.mk sp v)) []));
       ("op_in_unsafe_fn_allowed", into_diagnostic_arg flag)].
Proof.
  intros Hv. destruct v; try (exfalso; eapply Hv; reflexivity);
    eexists; destruct enc; reflexivity.
Qed.

Lemma hard_error_unit_kind_record_witness :
  (forall m b, UseOfMutableStatic <> CallToFunctionWith m b) /\
  exists n,
    into_diagnostic (RequiresUnsafe.mk sp1 (RequiresUnsafeDetail.mk sp1 UseOfMutableStatic)
                       (Some sp2) true) h_id =
    mkDiag (Some h_id) LvlError fluent.mir_transform_requires_unsafe (Some (Error "E0133"))
      (mkMultiSpan [sp1]
         ((sp1, label (RequiresUnsafeDetail.mk sp1 UseOfMutableStatic)) ::
          [(sp2, fluent.mir_transform_not_inherited)]))
      [mkSub Note n MultiSpan_new] []
      [("details", Str (eagerly_translate_to_string h_id
                          (label (RequiresUnsafeDetail.mk sp1 UseOfMutableStatic)) []));
       ("op_in_unsafe_fn_allowed", into_diagnostic_arg true)].
Proof.
  assert (Hv : forall m b, UseOfMutableStatic <> CallToFunctionWith m b)
    by (intros m b Hc; discriminate Hc).
  split; [exact Hv|].
  apply (hard_error_unit_kind_record sp1 sp1 UseOfMutableStatic (Some sp2) true h_id Hv).
Defined.

(** The hard error never carries a code suggestion, and the only
    arguments it binds are [details], [op_in_unsafe_fn_allowed] and the
    four target-feature arguments. *)
Theorem hard_error_no_suggestion_and_known_args (r : RequiresUnsafe.t) (h : Handler) :
  suggestions (into_diagnostic r h) = [] /\
  (forall k, String.eqb k "details" = false -> String.eqb k "op_in_unsafe_fn_allowed" = false ->
     target_feature_arg k = false -> arg_lookup k (args (into_diagnostic r h)) = None).
Proof.
  destruct r as [s det enc flag]. unfold into_diagnostic. cbn zeta.
  cbn [RequiresUnsafe.span RequiresUnsafe.details RequiresUnsafe.enclosing
       RequiresUnsafe.op_in_unsafe_fn_allowed].
  set (d0 := set_arg "op_in_unsafe_fn_allowed" flag _).
  destruct (add_subdiagnostics_frame det d0) as (_ & _ & _ & _ & _ & Hsg & _ & Ha).
  destruct enc as [e|]; cbn [span_label with_fields suggestions args];
    (split; [rewrite Hsg; reflexivity|]);
    intros k H1 H2 H3; rewrite Ha by exact H3; cbn; rewrite ?arg_lookup_insert, H1, H2; reflexivity.
Qed.

Lemma add_subdiagnostics_same_children det d1 d2 :
  exists extra, children (add_subdiagnostics det d1) = children d1 ++ extra /\
                children (add_subdiagnostics det d2) = children d2 ++ extra.
Proof.
  destruct det as [sp v]; destruct v as [| | | | | | | | | |m [|f b]]; cbn;
    eexists; split; rewrite <- ?app_assoc; reflexivity.
Qed.

(** The lint and the hard error agree on a violation: decorating an
    emittable lint builder appends the same notes and help as the hard
    error carries (followed by the signature note when a suggestion is
    given) and binds [details] to the same translated label. *)
Theorem lint_and_hard_error_agree det sugg s enc flag d h :
  handler d = Some h ->
  exists d',
    decorate_lint (UnsafeOpInUnsafeFn.mk det sugg) d = Some d' /\
    children d' = children d ++
      children (into_diagnostic (RequiresUnsafe.mk s det enc flag) h) ++
      match sugg with
      | Some (_, _, fn_sig) => [mkSub Note fluent.mir_transform_note (MultiSpan_from fn_sig)]
      | None => []
      end /\
    arg_lookup "details" (args d') =
      arg_lookup "details" (args (into_diagnostic (RequiresUnsafe.mk s det enc flag) h)).
Proof.
  intros Hh. unfold decorate_lint, into_diagnostic. rewrite Hh.
  cbn [UnsafeOpInUnsafeFn.details UnsafeOpInUnsafeFn.suggest_unsafe_block
       RequiresUnsafe.span RequiresUnsafe.details RequiresUnsafe.enclosing
       RequiresUnsafe.op_in_unsafe_fn_allowed].
  set (d1 := span_label _ _ (set_arg "details" _ d)).
  set (d2 := set_arg "op_in_unsafe_fn_allowed" flag _).
  destruct (add_subdiagnostics_same_children det d1 d2) as (extra & E1 & E2).
  destruct (add_subdiagnostics_frame det d1) as (_ & _ & _ & _ & _ & _ & _ & Ha1).
  destruct (add_subdiagnostics_frame det d2) as (_ & _ & _ & _ & _ & _ & _ & Ha2).
  assert (Htf : target_feature_arg "details" = false) by reflexivity.
  destruct sugg as [[[start end_] fn_sig]|]; eexists; (split; [reflexivity|]);
    destruct enc as [e|];
    cbn [span_note sub tool_only_multipart_suggestion span_label with_fields children args];
    rewrite E1, E2, Ha1, Ha2 by exact Htf; unfold d1, d2; cbn;
    rewrite ?arg_lookup_insert; cbn; rewrite <- ?app_assoc, ?app_nil_r;
    (split; [reflexivity|]); reflexivity.
Qed.

Lemma lint_and_hard_error_agree_witness :
  handler lint_builder = Some h_id /\
  exists d',
    decorate_lint (UnsafeOpInUnsafeFn.mk (RequiresUnsafeDetail.mk sp1 (CallToFunctionWith ["avx2"] []))
                     None) lint_builder = Some d' /\
    children d' = children lint_builder ++
      children (into_diagnostic
                  (RequiresUnsafe.mk sp1
                     (RequiresUnsafeDetail.mk sp1 (CallToFunctionWith ["avx2"] [])) None false) h_id) ++
      [] /\
    arg_lookup "details" (args d') =
      arg_lookup "details" (args (into_diagnostic
        (RequiresUnsafe.mk sp1 (RequiresUnsafeDetail.mk sp1 (CallToFunctionWith ["avx2"] []))
           None false) h_id)).
Proof.
  split; [reflexivity|].
  apply (lint_and_hard_error_agree (RequiresUnsafeDetail.mk sp1 (CallToFunctionWith ["avx2"] []))
           None sp1 None false lint_builder h_id).
  reflexivity.
Defined.

Lemma label_distinguishes_kinds_witness :
  label (RequiresUnsafeDetail.mk sp1 (CallToFunctionWith ["avx2"] [])) =
  label (RequiresUnsafeDetail.mk sp2 (CallToFunctionWith [] ["sse4.2"])) /\
  (CallToFunctionWith ["avx2"] [] = CallToFunctionWith [] ["sse4.2"] \/
   exists m1 b1 m2 b2, CallToFunctionWith ["avx2"] [] = CallToFunctionWith m1 b1 /\
                       CallToFunctionWith [] ["sse4.2"] = CallToFunctionWith m2 b2).
Proof.
  split; [reflexivity|].
  apply (label_distinguishes_kinds sp1 sp2 (CallToFunctionWith ["avx2"] [])
           (CallToFunctionWith [] ["sse4.2"])).
  reflexivity.
Defined.

Lemma add_subdiagnostics_injective_witness :
  add_subdiagnostics (RequiresUnsafeDetail.mk sp1 (CallToFunctionWith ["avx2"] ["sse4.2"]))
    lint_builder =
  add_subdiagnostics (RequiresUnsafeDetail.mk sp1 (CallToFunctionWith ["avx2"] ["sse4.2"]))
    lint_builder /\
  CallToFunctionWith ["avx2"] ["sse4.2"] = CallToFunctionWith ["avx2"] ["sse4.2"].
Proof.
  split; [reflexivity|].
  apply (add_subdiagnostics_injective sp1 (CallToFunctionWith ["avx2"] ["sse4.2"])
           (CallToFunctionWith ["avx2"] ["sse4.2"]) lint_builder).
  reflexivity.
Defined.
